(** * Sharded counter: the Cloud Functions entry points and the aggregation they drive

    The development has two parts.

    - [Aggregator] models the coordination store (total document, shard
      records, worker descriptors) and the transactional [aggregate]
      operation.  The classes that implement it ([ShardedCounterController],
      [ShardedCounterWorker]) are imported by [index.ts] from [./controller]
      and [./worker]; the model follows their written specification.
    - [Index] embeds [functions/src/index.ts]: the module-level state, the
      four exported functions and the calls they make on their
      collaborators. *)

From stdpp Require Import gmap strings list fin_maps sorting.
From Stdlib Require Import ZArith Lia.

Local Open Scope Z_scope.

(** A key range of the shard key space ([Slice] in the sources:
  [{ start: "", end: "" }]). *)
Record Slice := { start : string; end_ : string }.

(** [index.ts] always passes [{ start: "", end: "" }]: the whole key space. *)
Definition fullSlice : Slice := {| start := ""; end_ := "" |}.

(* ===================================================================== *)
(** * The coordination store and the Aggregator *)
(* ===================================================================== *)

Module Aggregator.

Inductive WorkerStatus := RUNNING | IDLE | FAILED.

(** Worker descriptor: one per active partition. *)
Record Descriptor := {
  range : Slice;
  wstatus : WorkerStatus;
  heartbeat : Z;
  processed : Z;
  stop : bool
}.

(** Modelled from the spec: the coordination store of one counter, which
    [controller.ts] and [worker.ts] read and write.  The aggregate state
    document holds the total, the time of the last aggregation and the
    number of shards consumed so far; shard records map their creation
    order key to a delta; worker descriptors are keyed by worker id. *)
Record Store := {
  total : Z;
  lastAggregation : Z;
  consumedCount : Z;
  shards : gmap string Z;
  workers : gmap string Descriptor
}.

Definition emptyStore : Store :=
  {| total := 0; lastAggregation := 0; consumedCount := 0;
     shards := ∅; workers := ∅ |}.

(** Modelled from the spec: membership of a key in the range
    [[start, end)], keys compared lexicographically; an empty [end] leaves
    the range unbounded above, so that [{ start: "", end: "" }] is the
    whole key space. *)
Definition inSlice (r : Slice) (k : string) : bool :=
  String.leb (start r) k && (String.eqb (end_ r) "" || String.ltb k (end_ r)).

Definition keyLe (p q : string * Z) : Prop := String.leb p.1 q.1 = true.

#[global] Instance keyLe_dec : RelDecision keyLe.
Proof. intros p q. unfold keyLe. apply _. Defined.

(** Modelled from the spec: the range query of the store.  Up to [limit]
    shard records whose key falls in [r], ordered by key ascending. *)
Definition query (r : Slice) (limit : Z) (m : gmap string Z) : list (string * Z) :=
  take (Z.to_nat limit)
       (merge_sort keyLe (filter (λ p, inSlice r p.1 = true) (map_to_list m))).

Definition sumDeltas (batch : list (string * Z)) : Z :=
  foldr (λ p acc, p.2 + acc) 0 batch.

Definition deleteAll (batch : list (string * Z)) (m : gmap string Z) : gmap string Z :=
  foldr (λ p acc, delete p.1 acc) m batch.

Inductive Status := DRAINED | AGGREGATED | TOO_MANY_SHARDS | FAILURE.

Record Result := { consumed : Z; status : Status }.

(** How the transaction of one pass ended: it committed, or every one of
    its bounded attempts met a conflict. *)
Inductive Txn := Committed | RetriesExhausted.

(** Modelled from the spec: [aggregate(range, limit)] of the Aggregator
    (the body of the aggregation transaction of [controller.ts] and
    [worker.ts]).  No record in range: [DRAINED].  Otherwise, in a single
    transaction, the deltas of the batch are summed, the sum is added to
    the total and every consumed record is deleted; a full batch reports
    [TOO_MANY_SHARDS].  When the retries are exhausted the pass fails and
    has no effect. *)
Definition aggregate (r : Slice) (limit : Z) (now : Z) (txn : Txn) (s : Store)
  : Result * Store :=
  match query r limit (shards s) with
  | [] => ({| consumed := 0; status := DRAINED |}, s)
  | batch =>
      match txn with
      | RetriesExhausted => ({| consumed := 0; status := FAILURE |}, s)
      | Committed =>
          let n := Z.of_nat (length batch) in
          ({| consumed := n;
              status := if n =? limit then TOO_MANY_SHARDS else AGGREGATED |},
           {| total := total s + sumDeltas batch;
              lastAggregation := now;
              consumedCount := consumedCount s + n;
              shards := deleteAll batch (shards s);
              workers := workers s |})
      end
  end.

(** What happens to the store, one event at a time: a writer creates a
    shard record, or some execution context (the controller over the whole
    key space, a worker over its partition) runs one aggregation pass. *)
Inductive Event :=
| Write (key : string) (delta : Z)
| Pass (r : Slice) (limit : Z) (now : Z) (txn : Txn).

(** A direct pass is the controller's, over the whole key space. *)
Definition DirectPass : Z → Z → Txn → Event := Pass fullSlice.

(** Shard records are created, never mutated: a write under a key that is
    in use is not a step of the system. *)
Definition step (s : Store) (e : Event) : option Store :=
  match e with
  | Write k d =>
      match shards s !! k with
      | Some _ => None
      | None =>
          Some {| total := total s; lastAggregation := lastAggregation s;
                  consumedCount := consumedCount s;
                  shards := <[k := d]> (shards s);
                  workers := workers s |}
      end
  | Pass r limit now txn => Some (aggregate r limit now txn s).2
  end.

Fixpoint run (s : Store) (trace : list Event) : option Store :=
  match trace with
  | [] => Some s
  | e :: rest =>
      match step s e with
      | Some s' => run s' rest
      | None => None
      end
  end.

(** The sum of all shard deltas written by a trace. *)
Fixpoint written (trace : list Event) : Z :=
  match trace with
  | [] => 0
  | Write _ d :: rest => d + written rest
  | Pass _ _ _ _ :: rest => written rest
  end.

(** The deltas still waiting in the store. *)
Definition pending (m : gmap string Z) : Z :=
  map_fold (λ _ d acc, d + acc) 0 m.

End Aggregator.

(* ===================================================================== *)
(** * functions/src/index.ts *)
(* ===================================================================== *)

Module Index.

(** ** Values that cross the boundary of the module *)

(** Modelled from the spec: [ControllerStatus], the enum that [index.ts]
    imports from [./controller]; its four members are those the
    specification lists. *)
Inductive ControllerStatus := OK | TOO_MANY_SHARDS | WORKERS_RUNNING | FAILURE.

(** [status === other] on enum members. *)
Definition statusEq (a b : ControllerStatus) : bool :=
  match a, b with
  | OK, OK | TOO_MANY_SHARDS, TOO_MANY_SHARDS
  | WORKERS_RUNNING, WORKERS_RUNNING | FAILURE, FAILURE => true
  | _, _ => false
  end.

(** How an awaited promise settles. *)
Inductive Outcome (A : Type) :=
| Fulfilled (a : A)
| Rejected (reason : string).
Arguments Fulfilled {A} a.
Arguments Rejected {A} reason.

(** What an [async] handler resolves to: [return null], or falling off the
    end of the function. *)
Inductive JsValue := Null | Undefined.

Record DocumentReference := { path : string }.

Inductive FieldValue :=
| FBool (b : bool)
| FNum (n : Z)
| FStr (s : string).

(** A Firestore document snapshot: [change.before] and [change.after]. *)
Record DocumentSnapshot := {
  ref : DocumentReference;
  snapExists : bool;
  fields : gmap string FieldValue
}.

Record Change := { before : DocumentSnapshot; after : DocumentSnapshot }.

Record EventContext := {
  eventId : string;
  timestamp : string;
  params : gmap string string
}.

Record Request := { method : string; url : string; body : string }.

(** [process.env], as far as [index.ts] reads it. *)
Record Env := { INTERNAL_STATE_PATH : string; EXT_INSTANCE_ID : string }.

(** The objects [index.ts] constructs; what their methods do is up to the
    collaborators below. *)
Record ShardedCounterController := {
  metadocRef : DocumentReference;
  controllerShards : string
}.

Record ShardedCounterWorker := {
  metadoc : DocumentSnapshot;
  workerShards : string
}.

(** A messaging client, known by its identity. *)
Record PubSub := { clientId : nat }.

Definition SHARDS_COLLECTION_ID : string := "_counter_shards_".
Definition WORKERS_COLLECTION_ID : string := "_counter_workers_".

(** The slash that separates the segments of a path. *)
Definition slash : Ascii.ascii := Ascii.ascii_of_nat 47.

(** A path cut at every slash, the way [String.prototype.split("/")] cuts
    it: the empty path has one empty segment, and a trailing slash leaves
    an empty last segment. *)
Fixpoint segments (s : string) : list string :=
  match s with
  | EmptyString => [EmptyString]
  | String c rest =>
      if Ascii.eqb c slash then EmptyString :: segments rest
      else match segments rest with
           | h :: t => String c h :: t
           | [] => [String c EmptyString]
           end
  end.

(** [Buffer.from(JSON.stringify({}))]: the two bytes of the text of the
    empty object. *)
Definition JSON_stringify_emptyObject : string := "{}".
Definition Buffer_from (s : string) : list Byte.byte := String.list_byte_of_string s.

(** Every call that leaves [index.ts], in the order it is made. *)
Inductive Call :=
| NewController (metadocRef : DocumentReference) (shardsId : string)
| AggregateOnce (c : ShardedCounterController) (slice : Slice) (limit : Z)
| RescheduleWorkers (c : ShardedCounterController)
| AggregateContinuously (c : ShardedCounterController) (slice : Slice)
    (limit : Z) (timeoutMillis : Z)
| NewWorker (metadoc : DocumentSnapshot) (shardsId : string)
| WorkerRun (w : ShardedCounterWorker)
| NewPubSub
| Publish (client : PubSub) (topic : string) (data : list Byte.byte)
| Respond (code : Z) (text : string).

Definition isAggregateOnce (c : Call) : bool :=
  match c with AggregateOnce _ _ _ => true | _ => false end.
Definition isRescheduleWorkers (c : Call) : bool :=
  match c with RescheduleWorkers _ => true | _ => false end.
Definition isAggregateContinuously (c : Call) : bool :=
  match c with AggregateContinuously _ _ _ _ => true | _ => false end.
Definition isWorkerRun (c : Call) : bool :=
  match c with WorkerRun _ => true | _ => false end.
Definition isNewPubSub (c : Call) : bool :=
  match c with NewPubSub => true | _ => false end.
Definition isPublish (c : Call) : bool :=
  match c with Publish _ _ _ => true | _ => false end.
Definition isRespond (c : Call) : bool :=
  match c with Respond _ _ => true | _ => false end.

(** Calls that reach the counter: the controller and the worker. *)
Definition touchesCounter (c : Call) : bool :=
  match c with
  | NewController _ _ | AggregateOnce _ _ _ | RescheduleWorkers _
  | AggregateContinuously _ _ _ _ | NewWorker _ _ | WorkerRun _ => true
  | NewPubSub | Publish _ _ _ | Respond _ _ => false
  end.

Definition countCalls (p : Call → bool) (l : list Call) : nat :=
  length (filter (λ c, p c = true) l).

(** ** The collaborators

    [index.ts] only delegates: what the controller and the worker do to the
    counter's documents ([DB]) and what the messaging service does with a
    message ([MQ]) is theirs.  Each awaited method settles one way or the
    other and leaves its side of the world in a new state.
    [firestoreDoc] is [firestore.doc(path)] of the Firestore client: it
    touches no state, and either returns a reference or throws (the client
    refuses a path that does not name a document). *)
Class Collaborators (DB MQ : Type) := {
  firestoreDoc : string → Outcome DocumentReference;
  aggregateOnce :
    ShardedCounterController → Slice → Z → DB → Outcome ControllerStatus * DB;
  rescheduleWorkers :
    ShardedCounterController → DB → Outcome unit * DB;
  aggregateContinuously :
    ShardedCounterController → Slice → Z → Z → DB → Outcome unit * DB;
  workerRun :
    ShardedCounterWorker → DB → Outcome unit * DB;
  newPubSub : MQ → Outcome PubSub * MQ;
  topicPublish : PubSub → string → list Byte.byte → MQ → Outcome string * MQ
}.

(** ** The state a function instance runs in *)

(** The counter's documents, the messaging service, the module-level
    variable [let pubsub;] and the calls made so far. *)
Record Runtime (DB MQ : Type) := {
  db : DB;
  mq : MQ;
  pubsub : option PubSub;
  log : list Call
}.
Arguments db {DB MQ} _.
Arguments mq {DB MQ} _.
Arguments pubsub {DB MQ} _.
Arguments log {DB MQ} _.

(** An [async] function body: it runs against the runtime and settles. *)
Definition Handler (DB MQ A : Type) : Type :=
  Runtime DB MQ → Outcome A * Runtime DB MQ.

Section Handlers.
Context {DB MQ : Type}.
#[local] Abbreviation Handler := (Handler DB MQ).

Definition ret {A} (a : A) : Handler A := λ rt, (Fulfilled a, rt).

(** Sequencing: a rejection of the awaited promise ends the handler. *)
Definition bind {A B} (m : Handler A) (k : A → Handler B) : Handler B :=
  λ rt,
    match m rt with
    | (Fulfilled a, rt') => k a rt'
    | (Rejected e, rt') => (Rejected e, rt')
    end.

Definition record (c : Call) : Handler unit :=
  λ rt, (Fulfilled tt,
         {| db := db rt; mq := mq rt; pubsub := pubsub rt; log := log rt ++ [c] |}).

Definition onDB {A} (f : DB → Outcome A * DB) : Handler A :=
  λ rt, let '(o, d) := f (db rt) in
        (o, {| db := d; mq := mq rt; pubsub := pubsub rt; log := log rt |}).

Definition onMQ {A} (f : MQ → Outcome A * MQ) : Handler A :=
  λ rt, let '(o, q) := f (mq rt) in
        (o, {| db := db rt; mq := q; pubsub := pubsub rt; log := log rt |}).

Definition readPubsub : Handler (option PubSub) :=
  λ rt, (Fulfilled (pubsub rt), rt).

Definition assignPubsub (c : PubSub) : Handler unit :=
  λ rt, (Fulfilled tt,
         {| db := db rt; mq := mq rt; pubsub := Some c; log := log rt |}).

End Handlers.

Notation "x ←! m ; k" := (bind m (λ x, k))
  (at level 20, m at level 100, k at level 200, only parsing, right associativity).
Notation "m ;;! k" := (bind m (λ _, k))
  (at level 100, k at level 200, only parsing, right associativity).

Section Functions.
Context {DB MQ : Type} `{!Collaborators DB MQ} (env : Env).
#[local] Abbreviation Handler := (Handler DB MQ).

(** [firestore.doc(path)]: a throw inside an [async] function rejects its
    promise. *)
Definition firestore_doc (p : string) : Handler DocumentReference :=
  λ rt, (firestoreDoc p, rt).

(** [new ShardedCounterController(metadocRef, SHARDS_COLLECTION_ID)] *)
Definition new_ShardedCounterController (r : DocumentReference) (shardsId : string)
  : Handler ShardedCounterController :=
  record (NewController r shardsId) ;;!
  ret {| metadocRef := r; controllerShards := shardsId |}.

(** [new ShardedCounterWorker(change.after, SHARDS_COLLECTION_ID)] *)
Definition new_ShardedCounterWorker (snap : DocumentSnapshot) (shardsId : string)
  : Handler ShardedCounterWorker :=
  record (NewWorker snap shardsId) ;;!
  ret {| metadoc := snap; workerShards := shardsId |}.

Definition await_aggregateOnce (c : ShardedCounterController) (slice : Slice) (limit : Z)
  : Handler ControllerStatus :=
  record (AggregateOnce c slice limit) ;;! onDB (aggregateOnce c slice limit).

Definition await_rescheduleWorkers (c : ShardedCounterController) : Handler unit :=
  record (RescheduleWorkers c) ;;! onDB (rescheduleWorkers c).

Definition await_aggregateContinuously (c : ShardedCounterController)
  (slice : Slice) (limit timeoutMillis : Z) : Handler unit :=
  record (AggregateContinuously c slice limit timeoutMillis) ;;!
  onDB (aggregateContinuously c slice limit timeoutMillis).

Definition await_run (w : ShardedCounterWorker) : Handler unit :=
  record (WorkerRun w) ;;! onDB (workerRun w).

(** [new PubSub()] *)
Definition new_PubSub : Handler PubSub :=
  record NewPubSub ;;! onMQ newPubSub.

(** [await pubsub.topic(name).publish(data)] *)
Definition await_publish (client : PubSub) (name : string) (data : list Byte.byte)
  : Handler string :=
  record (Publish client name data) ;;! onMQ (topicPublish client name data).

(** [res.status(code).send(text)] *)
Definition res_status_send (code : Z) (text : string) : Handler unit :=
  record (Respond code text).

(** [controllerCore]: the function scheduled every minute.
<<
    const metadocRef = firestore.doc(process.env.INTERNAL_STATE_PATH);
    const controller = new ShardedCounterController(metadocRef, SHARDS_COLLECTION_ID);
    let status = await controller.aggregateOnce({ start: "", end: "" }, 200);
    if (status === WORKERS_RUNNING || status === TOO_MANY_SHARDS || status === FAILURE) {
      await controller.rescheduleWorkers();
    }
    return null;
>> *)
Definition controllerCore : Handler JsValue :=
  metadocRef ←! firestore_doc (INTERNAL_STATE_PATH env) ;
  controller ←! new_ShardedCounterController metadocRef SHARDS_COLLECTION_ID ;
  status ←! await_aggregateOnce controller {| start := ""; end_ := "" |} 200 ;
  (if statusEq status WORKERS_RUNNING
      || statusEq status TOO_MANY_SHARDS
      || statusEq status FAILURE
   then await_rescheduleWorkers controller
   else ret tt) ;;!
  ret Null.

(** [controller]: the backwards compatible HTTPS function.
<<
    if (!pubsub) { pubsub = new PubSub(); }
    await pubsub.topic(process.env.EXT_INSTANCE_ID)
                .publish(Buffer.from(JSON.stringify({})));
    res.status(200).send("Ok");
>> *)
Definition controller (req : Request) : Handler JsValue :=
  current ←! readPubsub ;
  client ←! match current with
            | Some c => ret c
            | None => c ←! new_PubSub ; assignPubsub c ;;! ret c
            end ;
  await_publish client (EXT_INSTANCE_ID env)
    (Buffer_from JSON_stringify_emptyObject) ;;!
  res_status_send 200 "Ok" ;;!
  ret Undefined.

(** [worker]: runs on every write of a worker metadata document.
<<
    // stop worker if document got deleted
    if (!change.after.exists) return;
    const worker = new ShardedCounterWorker(change.after, SHARDS_COLLECTION_ID);
    await worker.run();
>> *)
Definition worker (change : Change) (context : EventContext) : Handler JsValue :=
  if negb (snapExists (after change)) then ret Undefined
  else
    w ←! new_ShardedCounterWorker (after change) SHARDS_COLLECTION_ID ;
    await_run w ;;!
    ret Undefined.

(** [onWrite]: runs on every shard write.
<<
    const metadocRef = firestore.doc(process.env.INTERNAL_STATE_PATH);
    const controller = new ShardedCounterController(metadocRef, SHARDS_COLLECTION_ID);
    await controller.aggregateContinuously({ start: "", end: "" }, 200, 60000);
>> *)
Definition onWrite (change : Change) (context : EventContext) : Handler JsValue :=
  metadocRef ←! firestore_doc (INTERNAL_STATE_PATH env) ;
  controller ←! new_ShardedCounterController metadocRef SHARDS_COLLECTION_ID ;
  await_aggregateContinuously controller {| start := ""; end_ := "" |} 200 60000 ;;!
  ret Undefined.

(** The controller object that [controllerCore] and [onWrite] construct
    on the reference [r] that [firestore.doc] returned. *)
Definition theController (r : DocumentReference) : ShardedCounterController :=
  {| metadocRef := r; controllerShards := SHARDS_COLLECTION_ID |}.

(** The settled promise and the world left behind by the one call to
    [aggregateOnce] that [controllerCore] makes from [rt]. *)
Definition firstPass (r : DocumentReference) (rt : Runtime DB MQ)
  : Outcome ControllerStatus * DB :=
  aggregateOnce (theController r) fullSlice 200 (db rt).

(** The condition of the [if] in [controllerCore]. *)
Definition needsReschedule (status : ControllerStatus) : bool :=
  statusEq status WORKERS_RUNNING
  || statusEq status TOO_MANY_SHARDS
  || statusEq status FAILURE.

(** How each exported function is registered with the platform. *)
Inductive CloudFunction :=
| PubsubTopicOnPublish (h : Handler JsValue)
| HttpsOnRequest (h : Request → Handler JsValue)
| FirestoreDocumentOnWrite (document : string)
    (h : Change → EventContext → Handler JsValue).

(** The [export const] declarations of the module, in source order. *)
Definition exports : list (string * CloudFunction) :=
  [ ("controllerCore", PubsubTopicOnPublish controllerCore);
    ("controller", HttpsOnRequest controller);
    ("worker",
       FirestoreDocumentOnWrite
         (INTERNAL_STATE_PATH env +:+ WORKERS_COLLECTION_ID +:+ "/{workerId}")
         worker);
    ("onWrite",
       FirestoreDocumentOnWrite
         "/{collection}/{**}/_counter_shards_/{shardId}"
         onWrite) ].

Inductive TriggerKind := PubsubTopic | Https | FirestoreWrite.

Definition triggerKind (f : CloudFunction) : TriggerKind :=
  match f with
  | PubsubTopicOnPublish _ => PubsubTopic
  | HttpsOnRequest _ => Https
  | FirestoreDocumentOnWrite _ _ => FirestoreWrite
  end.

Definition watchedDocument (f : CloudFunction) : option string :=
  match f with
  | FirestoreDocumentOnWrite d _ => Some d
  | _ => None
  end.

Definition exportNames : list string := exports.*1.

(** The calls a handler adds to the log when run from [rt]. *)
Definition callsOf {A} (h : Handler A) (rt : Runtime DB MQ) : list Call :=
  drop (length (log rt)) (log (h rt).2).

(** Requests served one after another by the same function instance (the
    module-level [pubsub] lives on between them); a request that rejects
    leaves the instance as it was at that point. *)
Fixpoint serve (reqs : list Request) (rt : Runtime DB MQ) : Runtime DB MQ :=
  match reqs with
  | [] => rt
  | req :: rest => serve rest (controller req rt).2
  end.

End Functions.

(** What kind of write a change is, from the two snapshots. *)
Inductive ChangeKind := Created | Updated | Deleted | Absent.

Definition changeKind (c : Change) : ChangeKind :=
  match snapExists (before c), snapExists (after c) with
  | false, true => Created
  | true, true => Updated
  | true, false => Deleted
  | false, false => Absent
  end.

(** The statuses on which the controller asks for a reschedule. *)
Definition signalled (st : ControllerStatus) : Prop :=
  st = WORKERS_RUNNING ∨ st = TOO_MANY_SHARDS ∨ st = FAILURE.

(** Modelled from the spec: the desired-stop flag of a worker descriptor, a
    boolean field of the worker document; [flag] is the field's name. *)
Definition carriesStopFlag (flag : string) (snap : DocumentSnapshot) : Prop :=
  fields snap !! flag = Some (FBool true).

End Index.

(** ** A scripted collaborator, to run the functions on concrete inputs *)

Module Fake.
Import Index.

(** The statuses [aggregateOnce] will return, in order, and how many
    reschedules and how many runs (of a worker, or of the continuous
    aggregation) have been asked for. *)
Record DB := { script : list ControllerStatus; reschedules : nat; runs : nat }.

(** The clients created so far and the messages published, oldest first;
    [down] makes every publish reject. *)
Record MQ := {
  clients : nat;
  messages : list (string * list Byte.byte);
  down : bool
}.

(** The check of the Firestore client on a document path: a non-empty
    string without a double slash whose non-empty segments (a leading or a
    trailing slash is allowed) are in even, positive number. *)
Definition isDocumentPath (p : string) : bool :=
  let segs := segments p in
  let named := List.filter (λ s, negb (String.eqb s EmptyString)) segs in
  negb (String.eqb p EmptyString)
  && forallb (λ s, negb (String.eqb s EmptyString)) (removelast (tail segs))
  && negb (Nat.eqb (length named) 0)
  && Nat.even (length named).

#[global] Instance fake : Collaborators DB MQ := {|
  firestoreDoc p :=
    if isDocumentPath p then Fulfilled {| path := p |}
    else Rejected "documentPath must point to a document";
  aggregateOnce _ _ _ d :=
    match script d with
    | [] => (Rejected "no status scripted", d)
    | st :: rest =>
        (Fulfilled st,
         {| script := rest; reschedules := reschedules d; runs := runs d |})
    end;
  rescheduleWorkers _ d :=
    (Fulfilled tt,
     {| script := script d; reschedules := S (reschedules d); runs := runs d |});
  aggregateContinuously _ _ _ _ d :=
    (Fulfilled tt,
     {| script := script d; reschedules := reschedules d; runs := S (runs d) |});
  workerRun _ d :=
    (Fulfilled tt,
     {| script := script d; reschedules := reschedules d; runs := S (runs d) |});
  newPubSub q :=
    (Fulfilled {| clientId := clients q |},
     {| clients := S (clients q); messages := messages q; down := down q |});
  topicPublish _ name data q :=
    if down q then (Rejected "unavailable", q)
    else (Fulfilled "1",
          {| clients := clients q; messages := messages q ++ [(name, data)];
             down := down q |})
|}.

Definition env0 : Env :=
  {| INTERNAL_STATE_PATH := "counters/state"; EXT_INSTANCE_ID := "firestore-counter" |}.

(** A deployment whose state path names a collection, not a document. *)
Definition envCollection : Env :=
  {| INTERNAL_STATE_PATH := "counters"; EXT_INSTANCE_ID := "firestore-counter" |}.

Definition boot (statuses : list ControllerStatus) : Runtime DB MQ :=
  {| db := {| script := statuses; reschedules := 0; runs := 0 |};
     mq := {| clients := 0; messages := []; down := false |};
     pubsub := None;
     log := [] |}.

Definition snapshot (p : string) (present : bool)
  (fs : list (string * FieldValue)) : DocumentSnapshot :=
  {| ref := {| path := p |}; snapExists := present; fields := list_to_map fs |}.

Definition context0 : EventContext :=
  {| eventId := "e0"; timestamp := "t0"; params := ∅ |}.

Definition get : Request := {| method := "GET"; url := "/"; body := "" |}.

End Fake.

(** ** A collaborator that fails: every aggregation reports [FAILURE] and
    everything else rejects *)

Module Flaky.
Import Index.

Definition flaky : Collaborators unit unit := {|
  firestoreDoc p := Fulfilled {| path := p |};
  aggregateOnce _ _ _ d := (Fulfilled FAILURE, d);
  rescheduleWorkers _ d := (Rejected "transaction failed", d);
  aggregateContinuously _ _ _ _ d := (Rejected "transaction failed", d);
  workerRun _ d := (Rejected "transaction failed", d);
  newPubSub q := (Rejected "unavailable", q);
  topicPublish _ _ _ q := (Rejected "unavailable", q)
|}.

Definition start : Runtime unit unit :=
  {| db := tt; mq := tt; pubsub := None; log := [] |}.

End Flaky.

(** ** Sample stores, traces and events *)

Module Samples.
Import Aggregator Index Fake.

(** Three writes, a direct pass cut short by its limit, a failed and a
    committed pass over the partition [[b, c)], a pass over [[c, ...)] and a
    last direct pass that finds nothing. *)
Definition traceC1 : list Event :=
  [ Write "a" 1; Write "b" 2;
    DirectPass 1 10 Committed;
    Write "c" (-5);
    Pass {| start := "b"; end_ := "c" |} 200 20 RetriesExhausted;
    Pass {| start := "b"; end_ := "c" |} 200 30 Committed;
    Pass {| start := "c"; end_ := "" |} 200 40 Committed;
    DirectPass 200 50 Committed ].

Definition finalC1 : Store :=
  {| total := -2; lastAggregation := 40; consumedCount := 3;
     shards := ∅; workers := ∅ |}.

(** A store whose only shard record lies outside the range [[a, m)]. *)
Definition storeC6 : Store :=
  {| total := 7; lastAggregation := 3; consumedCount := 4;
     shards := {[ "z" := 5 ]};
     workers := {[ "w1" := {| range := {| start := "a"; end_ := "m" |};
                              wstatus := RUNNING; heartbeat := 3;
                              processed := 4; stop := false |} ]} |}.

Definition deletedDescriptor : Change :=
  {| before := snapshot "counters/state_counter_workers_/w1" true [];
     after := snapshot "counters/state_counter_workers_/w1" false [] |}.

(** A descriptor that exists after the write and carries a stop flag. *)
Definition stoppedDescriptor : Change :=
  {| before := snapshot "counters/state_counter_workers_/w1" true [];
     after := snapshot "counters/state_counter_workers_/w1" true
                [("stop", FBool true)] |}.

End Samples.

(** ** More of index.ts: module load, document patterns, served requests *)

Module IndexMore.
Import Index.

Definition isFulfilled {A} (o : Outcome A) : bool :=
  match o with Fulfilled _ => true | Rejected _ => false end.

(** Calls on the messaging service and on the HTTP response. *)
Definition isMessaging (c : Call) : bool := negb (touchesCounter c).

Section More.
Context {DB MQ : Type} `{!Collaborators DB MQ} (env : Env).

(** The module as it is right after loading: [let pubsub;] is still
    undefined and no call has been made. *)
Definition moduleLoaded (d : DB) (q : MQ) : Runtime DB MQ :=
  {| db := d; mq := q; pubsub := None; log := [] |}.

(** The document pattern [worker] is registered on:
<<
    process.env.INTERNAL_STATE_PATH + WORKERS_COLLECTION_ID + "/{workerId}"
>> *)
Definition workerDocument : string :=
  (INTERNAL_STATE_PATH env +:+ WORKERS_COLLECTION_ID) +:+ "/{workerId}".

(** The settled promise and the world left behind by the one call to
    [aggregateContinuously] that [onWrite] makes from [rt]. *)
Definition continuousPass (r : DocumentReference) (rt : Runtime DB MQ)
  : Outcome unit * DB :=
  aggregateContinuously (theController r) fullSlice 200 60000 (db rt).

(** The same for the [run] of the worker that [worker] constructs on
    [change.after]. *)
Definition workerPass (change : Change) (rt : Runtime DB MQ) : Outcome unit * DB :=
  workerRun {| metadoc := after change; workerShards := SHARDS_COLLECTION_ID |} (db rt).

(** The exported function of a given name. *)
Definition exported (name : string) : option (@CloudFunction DB MQ) :=
  (list_to_map (exports env) : gmap string CloudFunction) !! name.

(** Modelled from the spec: the change notification of the platform
    (section 6).  The handler of a function registered with [onWrite] is
    invoked after a create, an update or a delete of a document that its
    pattern watches; [watches pattern path] stands for the platform's
    matching of a document path against a pattern.  [None]: the function
    is not invoked. *)
Definition notified (k : ChangeKind) : bool :=
  match k with
  | Created | Updated | Deleted => true
  | Absent => false
  end.

Definition deliverWrite (watches : string → string → bool) (f : @CloudFunction DB MQ)
  (change : Change) (context : EventContext) : Handler DB MQ (option JsValue) :=
  match f with
  | FirestoreDocumentOnWrite document h =>
      if watches document (path (ref (after change))) && notified (changeKind change)
      then v ←! h change context ; ret (Some v)
      else ret None
  | _ => ret None
  end.

(** How each of the requests served by [serve] settled, in order. *)
Fixpoint outcomes (reqs : list Request) (rt : Runtime DB MQ) : list (Outcome JsValue) :=
  match reqs with
  | [] => []
  | req :: rest =>
      (controller env req rt).1 :: outcomes rest (controller env req rt).2
  end.

(** The calls made while serving [reqs] from [rt]. *)
Definition servedCalls (reqs : list Request) (rt : Runtime DB MQ) : list Call :=
  drop (length (log rt)) (log (serve env reqs rt)).

End More.

(** A change whose document did not exist before and exists after. *)
Definition createdDescriptor : Change :=
  {| before := Fake.snapshot "counters/state_counter_workers_/w1" false [];
     after := Fake.snapshot "counters/state_counter_workers_/w1" true [] |}.

Definition post : Request := {| method := "POST"; url := "/tick"; body := "now" |}.

(** The deletion of a shard document, as the aggregation performs it. *)
Definition deletedShard : Change :=
  {| before := Fake.snapshot "counters/c1/_counter_shards_/s1" true [("_updates_", FNum 1)];
     after := Fake.snapshot "counters/c1/_counter_shards_/s1" false [] |}.

(** A matcher that takes every document under a [_counter_shards_]
    collection as watched by the pattern of [onWrite]. *)
Definition watchesShards (pattern docPath : string) : bool :=
  String.eqb pattern "/{collection}/{**}/_counter_shards_/{shardId}"
  && bool_decide ("_counter_shards_" ∈ segments docPath).

(** A freshly loaded module facing a messaging service that is down: every
    publish rejects. *)
Definition outage : Runtime Fake.DB Fake.MQ :=
  moduleLoaded
    {| Fake.script := []; Fake.reschedules := 0; Fake.runs := 0 |}
    {| Fake.clients := 0; Fake.messages := []; Fake.down := true |}.

End IndexMore.

(* ===================================================================== *)
(** * Facts about the Aggregator *)
(* ===================================================================== *)

Module AggregatorFacts.
Import Aggregator.

Lemma pending_empty : pending ∅ = 0.
Proof. apply map_fold_empty. Qed.

Lemma pending_insert (m : gmap string Z) k d :
  m !! k = None → pending (<[k := d]> m) = d + pending m.
Proof.
  intros Hk. unfold pending.
  rewrite map_fold_insert_L; [done | intros; lia | done].
Qed.

Lemma pending_delete (m : gmap string Z) k d :
  m !! k = Some d → pending m = d + pending (delete k m).
Proof.
  intros Hk. rewrite <- (insert_delete_id m k d) at 1 by done.
  apply pending_insert, lookup_delete_eq.
Qed.

(** Deleting a batch of distinct records moves exactly their deltas out
    of the pending sum. *)
Lemma pending_deleteAll (batch : list (string * Z)) (m : gmap string Z) :
  NoDup batch.*1 →
  (∀ k d, (k, d) ∈ batch → m !! k = Some d) →
  pending m = sumDeltas batch + pending (deleteAll batch m).
Proof.
  revert m. induction batch as [|[k d] batch IH]; intros m Hnd Hin; simpl.
  - lia.
  - apply NoDup_cons in Hnd as [Hk Hnd].
    rewrite (IH m Hnd) by (intros; apply Hin; by right).
    assert (Hkd : deleteAll batch m !! k = Some d).
    { clear IH. assert (Hm : m !! k = Some d) by (apply Hin; left).
      induction batch as [|[k' d'] batch IHb]; simpl; [done|].
      rewrite lookup_delete_ne.
      - apply IHb.
        + intros Hel. apply Hk. simpl. by right.
        + by apply NoDup_cons in Hnd as [_ ?].
        + intros k0 d0 H0. apply Hin.
          apply elem_of_cons in H0 as [->|H0]; [left|right; by right].
      - intros ->. apply Hk. simpl. left. }
    rewrite (pending_delete _ k d Hkd). lia.
Qed.

Lemma query_sublist r limit (m : gmap string Z) :
  ∀ p, p ∈ query r limit m → p ∈ map_to_list m ∧ inSlice r p.1 = true.
Proof.
  intros p Hp. unfold query in Hp.
  apply elem_of_take in Hp as (i & Hp & _).
  apply list_elem_of_lookup_2 in Hp.
  rewrite merge_sort_Permutation in Hp.
  by apply list_elem_of_filter in Hp as [? ?].
Qed.

Lemma query_lookup r limit (m : gmap string Z) k d :
  (k, d) ∈ query r limit m → m !! k = Some d.
Proof. intros H. apply query_sublist in H as [H _]. by apply elem_of_map_to_list. Qed.

Lemma query_NoDup r limit (m : gmap string Z) : NoDup (query r limit m).*1.
Proof.
  unfold query. rewrite fmap_take.
  refine (sublist_NoDup _ _ _ (sublist_take _ _)).
  rewrite merge_sort_Permutation.
  refine (sublist_NoDup _ _ (NoDup_fst_map_to_list m) _).
  apply fmap_sublist, sublist_filter.
Qed.

End AggregatorFacts.

Module AggregatorTheorems.
Import Aggregator AggregatorFacts Samples.

Lemma lookup_deleteAll (batch : list (string * Z)) (m : gmap string Z) k :
  deleteAll batch m !! k = if decide (k ∈ batch.*1) then None else m !! k.
Proof.
  induction batch as [|[k' d'] batch IH]; simpl.
  - destruct (decide (k ∈ [])) as [H|H]; [by apply elem_of_nil in H | done].
  - destruct (decide (k' = k)) as [->|Hne].
    + rewrite lookup_delete_eq. rewrite decide_True; [done | left].
    + rewrite lookup_delete_ne by done. rewrite IH.
      destruct (decide (k ∈ batch.*1)) as [Hin|Hout].
      * rewrite decide_True; [done | by right].
      * rewrite decide_False; [done|].
        intros [?|?]%elem_of_cons; [congruence | done].
Qed.

(** A committed pass deletes every record it summed: none of them can be
    read, and summed, a second time. *)
Lemma aggregate_consumes_batch r limit now (s : Store) k d :
  (k, d) ∈ query r limit (shards s) →
  shards (aggregate r limit now Committed s).2 !! k = None.
Proof.
  intros Hin. unfold aggregate.
  destruct (query r limit (shards s)) as [|p batch] eqn:Hq.
  - by apply elem_of_nil in Hin.
  - cbn [snd shards]. rewrite lookup_deleteAll, decide_True; [done|].
    apply list_elem_of_fmap. by exists (k, d).
Qed.

(** One pass moves deltas from the records to the total and loses none. *)
Lemma aggregate_conserves r limit now txn (s : Store) :
  let s' := (aggregate r limit now txn s).2 in
  total s' + pending (shards s') = total s + pending (shards s).
Proof.
  unfold aggregate.
  destruct (query r limit (shards s)) as [|p batch] eqn:Hq; [done|].
  destruct txn; [|done]. cbn [snd total shards].
  rewrite (pending_deleteAll (p :: batch) (shards s)).
  - lia.
  - rewrite <- Hq. apply query_NoDup.
  - intros k d Hin. rewrite <- Hq in Hin. by eapply query_lookup.
Qed.

Lemma step_conserves (s s' : Store) e :
  step s e = Some s' →
  total s' + pending (shards s') = total s + pending (shards s) + written [e].
Proof.
  destruct e as [k d|r limit now txn]; simpl.
  - destruct (shards s !! k) eqn:Hk; [done|]. intros [= <-]. simpl.
    rewrite pending_insert by done. lia.
  - intros [= <-]. pose proof (aggregate_conserves r limit now txn s) as H.
    simpl in H. lia.
Qed.

(** The invariant behind the conservation law: at every moment the total
    plus what is still waiting in shard records is what was written. *)
Lemma run_conserves (trace : list Event) (s s' : Store) :
  run s trace = Some s' →
  total s' + pending (shards s') = total s + pending (shards s) + written trace.
Proof.
  revert s. induction trace as [|e trace IH]; intros s; simpl.
  - intros [= <-]. lia.
  - destruct (step s e) as [s1|] eqn:Hstep; [|done]. intros Hrun.
    apply IH in Hrun. apply step_conserves in Hstep. simpl in Hstep.
    destruct e; lia.
Qed.

Lemma inSlice_full k : inSlice fullSlice k = true.
Proof. unfold inSlice, fullSlice. simpl. by destruct k. Qed.

(** The shards can always be drained: a committed direct pass whose limit
    covers the backlog leaves no record behind. *)
Lemma direct_pass_drains now limit (s : Store) :
  Z.of_nat (size (shards s)) ≤ limit →
  shards (aggregate fullSlice limit now Committed s).2 = ∅.
Proof.
  intros Hlim.
  assert (Hall : ∀ k d, shards s !! k = Some d → (k, d) ∈ query fullSlice limit (shards s)).
  { intros k d Hk. unfold query. rewrite take_ge.
    - rewrite merge_sort_Permutation. apply list_elem_of_filter. split.
      + apply inSlice_full.
      + by apply elem_of_map_to_list.
    - rewrite merge_sort_Permutation.
      etrans; [apply length_filter|]. rewrite length_map_to_list. lia. }
  apply map_eq. intros k. rewrite lookup_empty.
  destruct (shards s !! k) as [d|] eqn:Hk.
  - eapply aggregate_consumes_batch, Hall, Hk.
  - unfold aggregate. destruct (query _ _ _); [done|]. cbn [snd shards].
    rewrite lookup_deleteAll. by case_decide.
Qed.

(** C1. Conservation law: whatever shard writes and aggregation passes
    (over the whole key space or over a partition, committed or failed) a
    new counter goes through, in whatever order, once no shard record is
    left the total is exactly the sum of all the deltas ever written: no
    increment is lost and none is counted twice. *)
Theorem conservation_law (trace : list Event) (final : Store) :
  run emptyStore trace = Some final →
  shards final = ∅ →
  total final = written trace.
Proof.
  intros Hrun Hdrained. apply run_conserves in Hrun.
  rewrite Hdrained, pending_empty in Hrun. simpl in Hrun.
  rewrite pending_empty in Hrun. lia.
Qed.

Lemma conservation_law_witness :
  run emptyStore traceC1 = Some finalC1 ∧ total finalC1 = written traceC1.
Proof.
  assert (Hrun : run emptyStore traceC1 = Some finalC1) by (vm_compute; reflexivity).
  split; [exact Hrun|].
  exact (conservation_law traceC1 finalC1 Hrun eq_refl).
Defined.

(** C6. Invoking [aggregate] on a range in which no shard record remains
    returns [DRAINED] and changes nothing: the total, the worker
    descriptors and the rest of the store are as before, so invoking it
    again gives the same answer on the same store. *)
Theorem aggregate_drained_idempotent r limit now txn (s : Store) :
  (∀ k, is_Some (shards s !! k) → inSlice r k = false) →
  aggregate r limit now txn s = ({| consumed := 0; status := DRAINED |}, s)
  ∧ total (aggregate r limit now txn s).2 = total s
  ∧ workers (aggregate r limit now txn s).2 = workers s
  ∧ ∀ now' txn',
      aggregate r limit now' txn' (aggregate r limit now txn s).2
      = ({| consumed := 0; status := DRAINED |}, s).
Proof.
  intros Hnone.
  assert (Hq : query r limit (shards s) = []).
  { destruct (query r limit (shards s)) as [|[k d] batch] eqn:Hq; [done|].
    assert (Hin : (k, d) ∈ query r limit (shards s)) by (rewrite Hq; left).
    apply query_sublist in Hin as [Hm Hr]. apply elem_of_map_to_list in Hm.
    simpl in Hr. rewrite Hnone in Hr; [done | by exists d]. }
  assert (Hagg : ∀ t tx, aggregate r limit t tx s = ({| consumed := 0; status := DRAINED |}, s)).
  { intros t tx. unfold aggregate. by rewrite Hq. }
  rewrite Hagg. simpl. auto.
Qed.

Lemma aggregate_drained_idempotent_witness :
  aggregate {| start := "a"; end_ := "m" |} 200 9 Committed storeC6
  = ({| consumed := 0; status := DRAINED |}, storeC6).
Proof.
  refine (proj1 (aggregate_drained_idempotent
                   {| start := "a"; end_ := "m" |} 200 9 Committed storeC6 _)).
  intros k [d Hk]. unfold storeC6 in Hk. cbn [shards] in Hk.
  apply lookup_singleton_Some in Hk as [<- _]. reflexivity.
Defined.

End AggregatorTheorems.

(* ===================================================================== *)
(** * Facts about the entry points of index.ts *)
(* ===================================================================== *)

Module IndexTheorems.
Import Index IndexMore.

Lemma drop_all {A} (l : list A) : drop (length l) l = [].
Proof. by rewrite drop_ge. Qed.

(** Unfold a handler down to the collaborator calls it makes. *)
Ltac unfold_handler :=
  unfold controllerCore, controller, worker, onWrite, firestore_doc,
    new_ShardedCounterController, new_ShardedCounterWorker,
    await_aggregateOnce, await_rescheduleWorkers, await_aggregateContinuously,
    await_run, new_PubSub, await_publish, res_status_send,
    readPubsub, assignPubsub, bind, record, onDB, onMQ, ret;
  cbn [fst snd db mq pubsub log].

(** Read off the calls appended to the log. *)
Ltac read_calls :=
  unfold callsOf; cbn [fst snd db mq pubsub log];
  rewrite <- ?app_assoc; rewrite ?drop_app_length, ?drop_all; cbn [app].

Section Facts.
Context {DB MQ : Type} `{!Collaborators DB MQ} (env : Env).
Implicit Types rt : Runtime DB MQ.

Lemma needsReschedule_signalled st : needsReschedule st = true ↔ signalled st.
Proof. unfold signalled. destruct st; cbn; intuition congruence. Qed.

(** What [controllerCore] does, case by case. *)
Lemma controllerCore_cases rt :
  controllerCore env rt
  = match firestoreDoc (INTERNAL_STATE_PATH env) with
    | Rejected e => (Rejected e, rt)
    | Fulfilled r =>
        match firstPass r rt with
        | (Rejected e, d) =>
            (Rejected e,
             {| db := d; mq := mq rt; pubsub := pubsub rt;
                log := log rt ++ [NewController r SHARDS_COLLECTION_ID;
                                  AggregateOnce (theController r) fullSlice 200] |})
        | (Fulfilled st, d) =>
            if needsReschedule st then
              (match (rescheduleWorkers (theController r) d).1 with
               | Fulfilled _ => Fulfilled Null
               | Rejected e => Rejected e
               end,
               {| db := (rescheduleWorkers (theController r) d).2;
                  mq := mq rt; pubsub := pubsub rt;
                  log := log rt ++ [NewController r SHARDS_COLLECTION_ID;
                                    AggregateOnce (theController r) fullSlice 200;
                                    RescheduleWorkers (theController r)] |})
            else
              (Fulfilled Null,
               {| db := d; mq := mq rt; pubsub := pubsub rt;
                  log := log rt ++ [NewController r SHARDS_COLLECTION_ID;
                                    AggregateOnce (theController r) fullSlice 200] |})
        end
    end.
Proof.
  unfold firstPass, needsReschedule. unfold_handler.
  destruct (firestoreDoc _) as [r|e]; [|done].
  cbn [fst snd db mq pubsub log]. fold (theController r). fold fullSlice.
  destruct (aggregateOnce _ _ _ _) as [[st|e] d]; [|by rewrite <- app_assoc].
  destruct st; cbn;
    try (destruct (rescheduleWorkers _ _) as [[u|e] d']; cbn);
    by rewrite <- !app_assoc.
Qed.

(** What [onWrite] does, case by case. *)
Lemma onWrite_cases change context rt :
  onWrite env change context rt
  = match firestoreDoc (INTERNAL_STATE_PATH env) with
    | Rejected e => (Rejected e, rt)
    | Fulfilled r =>
        (match (continuousPass r rt).1 with
         | Fulfilled _ => Fulfilled Undefined
         | Rejected e => Rejected e
         end,
         {| db := (continuousPass r rt).2; mq := mq rt; pubsub := pubsub rt;
            log := log rt ++ [NewController r SHARDS_COLLECTION_ID;
                              AggregateContinuously (theController r)
                                {| start := ""; end_ := "" |} 200 60000] |})
    end.
Proof.
  unfold continuousPass. unfold_handler.
  destruct (firestoreDoc _) as [r|e]; [|done].
  cbn [fst snd db mq pubsub log]. fold (theController r). fold fullSlice.
  destruct (aggregateContinuously _ _ _ _ _) as [[u|e] d]; cbn;
    by rewrite <- !app_assoc.
Qed.

(** C2. In [controllerCore] (once [firestore.doc] has returned the
    reference of the state document), [rescheduleWorkers] is invoked, after
    [aggregateOnce] and on the state it left, exactly when the status that
    [aggregateOnce] returned is [WORKERS_RUNNING], [TOO_MANY_SHARDS] or
    [FAILURE]; the function then settles as the reschedule does.  On [OK]
    the function makes no further call, leaves the world as [aggregateOnce]
    left it and returns. *)
Theorem controllerCore_reschedules_when_signalled rt r :
  firestoreDoc (INTERNAL_STATE_PATH env) = Fulfilled r →
  (∀ st, (firstPass r rt).1 = Fulfilled st → signalled st →
     callsOf (controllerCore env) rt
     = [ NewController r SHARDS_COLLECTION_ID;
         AggregateOnce (theController r) fullSlice 200;
         RescheduleWorkers (theController r) ]
     ∧ (controllerCore env rt).1
       = match (rescheduleWorkers (theController r) (firstPass r rt).2).1 with
         | Fulfilled _ => Fulfilled Null
         | Rejected e => Rejected e
         end
     ∧ db (controllerCore env rt).2
       = (rescheduleWorkers (theController r) (firstPass r rt).2).2
     ∧ mq (controllerCore env rt).2 = mq rt
     ∧ pubsub (controllerCore env rt).2 = pubsub rt)
  ∧ ((firstPass r rt).1 = Fulfilled OK →
     callsOf (controllerCore env) rt
     = [ NewController r SHARDS_COLLECTION_ID;
         AggregateOnce (theController r) fullSlice 200 ]
     ∧ (controllerCore env rt).1 = Fulfilled Null
     ∧ db (controllerCore env rt).2 = (firstPass r rt).2
     ∧ mq (controllerCore env rt).2 = mq rt
     ∧ pubsub (controllerCore env rt).2 = pubsub rt)
  ∧ (countCalls isRescheduleWorkers (callsOf (controllerCore env) rt) ≠ 0%nat
     ↔ ∃ st, (firstPass r rt).1 = Fulfilled st ∧ signalled st).
Proof.
  intros Hdoc. pose proof (controllerCore_cases rt) as Hc. rewrite Hdoc in Hc.
  unfold callsOf. rewrite !Hc. clear Hc.
  destruct (firstPass r rt) as [[st|e] d]; cbn [fst snd].
  - split; [|split].
    + intros st' [= <-] Hs. apply needsReschedule_signalled in Hs. rewrite Hs.
      by read_calls.
    + intros [= ->]. cbn [needsReschedule statusEq orb]. by read_calls.
    + destruct (needsReschedule st) eqn:Hn; read_calls.
      * split; [|by vm_compute]. intros _. exists st. split; [done|].
        by apply needsReschedule_signalled.
      * split; [intros Hz; by vm_compute in Hz|].
        intros (st' & [= <-] & Hs). apply needsReschedule_signalled in Hs. congruence.
  - read_calls. split; [|split]; try done.
    split; [intros Hz; by vm_compute in Hz | by intros (st' & [=] & _)].
Qed.

(** C9, as the code has it.  If [firestore.doc] throws (the state path
    names no document), [controllerCore] rejects with that error and
    makes no call.  Otherwise it calls [aggregateOnce] exactly once, over
    the whole key range [{ start: "", end: "" }] with limit 200, and
    [rescheduleWorkers] at most once, on the state the aggregation left;
    for every status [aggregateOnce] returns it then resolves to [null],
    unless it awaited a reschedule that rejected, whose rejection it
    passes on.  [null] is the only value it ever resolves to. *)
Theorem controllerCore_one_pass_null_or_rejection rt :
  (∀ e, firestoreDoc (INTERNAL_STATE_PATH env) = Rejected e →
     controllerCore env rt = (Rejected e, rt))
  ∧ (∀ r, firestoreDoc (INTERNAL_STATE_PATH env) = Fulfilled r →
     filter (λ c, isAggregateOnce c = true) (callsOf (controllerCore env) rt)
     = [ AggregateOnce (theController r) {| start := ""; end_ := "" |} 200 ]
     ∧ countCalls isAggregateOnce (callsOf (controllerCore env) rt) = 1%nat
     ∧ (countCalls isRescheduleWorkers (callsOf (controllerCore env) rt) ≤ 1)%nat
     ∧ db (controllerCore env rt).2
       = match firstPass r rt with
         | (Fulfilled st, d) =>
             if needsReschedule st
             then (rescheduleWorkers (theController r) d).2
             else d
         | (Rejected _, d) => d
         end
     ∧ ∀ st, (firstPass r rt).1 = Fulfilled st →
         (controllerCore env rt).1
         = if needsReschedule st
           then match (rescheduleWorkers (theController r) (firstPass r rt).2).1 with
                | Fulfilled _ => Fulfilled Null
                | Rejected e => Rejected e
                end
           else Fulfilled Null)
  ∧ (∀ v, (controllerCore env rt).1 = Fulfilled v → v = Null).
Proof.
  pose proof (controllerCore_cases rt) as Hc. split; [|split].
  - intros e Hdoc. by rewrite Hc, Hdoc.
  - intros r Hdoc. rewrite Hdoc in Hc. unfold countCalls, callsOf.
    rewrite !Hc. clear Hc.
    destruct (firstPass r rt) as [[st|e] d]; cbn [fst snd].
    + destruct (needsReschedule st) eqn:Hn; read_calls;
        (repeat split; try (vm_compute; lia));
        intros st' [= <-]; by rewrite Hn.
    + read_calls. repeat split; try (vm_compute; lia); done.
  - intros v. rewrite Hc. clear Hc.
    destruct (firestoreDoc _) as [r|e]; [|done].
    destruct (firstPass r rt) as [[st|e] d]; [|done].
    destruct (needsReschedule st);
      [destruct (rescheduleWorkers _ _) as [[u|e] d']|]; cbn [fst snd]; congruence.
Qed.

(** C3, as the code has it.  The [worker] entry point looks at one thing,
    whether the descriptor document exists after the write.  If it does
    not, the function returns at once: no call is made and nothing
    changes.  If it does, whatever its fields hold (a stop flag included),
    a worker is constructed on that snapshot and run. *)
Theorem worker_runs_iff_descriptor_exists change context rt :
  (snapExists (after change) = false →
     worker change context rt = (Fulfilled Undefined, rt)
     ∧ callsOf (worker change context) rt = [])
  ∧ (snapExists (after change) = true →
     callsOf (worker change context) rt
     = [ NewWorker (after change) SHARDS_COLLECTION_ID;
         WorkerRun {| metadoc := after change;
                      workerShards := SHARDS_COLLECTION_ID |} ])
  ∧ (∀ flag, snapExists (after change) = true →
     carriesStopFlag flag (after change) →
     countCalls isWorkerRun (callsOf (worker change context) rt) = 1%nat).
Proof.
  assert (Hrun : snapExists (after change) = true →
     callsOf (worker change context) rt
     = [ NewWorker (after change) SHARDS_COLLECTION_ID;
         WorkerRun {| metadoc := after change;
                      workerShards := SHARDS_COLLECTION_ID |} ]).
  { intros Hex. unfold callsOf. unfold_handler. rewrite Hex. cbn [negb].
    destruct (workerRun _ _) as [[u|e] d]; by read_calls. }
  split; [|split].
  - intros Hex. unfold callsOf. unfold_handler. rewrite Hex. cbn [negb snd].
    by rewrite drop_all.
  - exact Hrun.
  - intros flag Hex _. by rewrite (Hrun Hex).
Qed.

(** What the HTTPS function does, case by case. *)
Lemma controller_cases req rt :
  let data := Buffer_from "{}" in
  let finish (c : PubSub) (q : MQ) (made : list Call) :=
    match topicPublish c (EXT_INSTANCE_ID env) data q with
    | (Fulfilled _, q') =>
        (Fulfilled Undefined,
         {| db := db rt; mq := q'; pubsub := Some c;
            log := log rt ++ made
                     ++ [Publish c (EXT_INSTANCE_ID env) data; Respond 200 "Ok"] |})
    | (Rejected e, q') =>
        (Rejected e,
         {| db := db rt; mq := q'; pubsub := Some c;
            log := log rt ++ made ++ [Publish c (EXT_INSTANCE_ID env) data] |})
    end in
  controller env req rt
  = match pubsub rt with
    | Some c => finish c (mq rt) []
    | None =>
        match newPubSub (mq rt) with
        | (Fulfilled c, q) => finish c q [NewPubSub]
        | (Rejected e, q) =>
            (Rejected e,
             {| db := db rt; mq := q; pubsub := None; log := log rt ++ [NewPubSub] |})
        end
    end.
Proof.
  cbv zeta. unfold_handler.
  change (Buffer_from JSON_stringify_emptyObject) with (Buffer_from "{}").
  destruct rt as [d q [c|] l]; cbn [db mq pubsub log].
  - destruct (topicPublish _ _ _ _) as [[m|e] q']; cbn; by rewrite <- ?app_assoc.
  - destruct (newPubSub q) as [[c|e] q']; cbn; [|done].
    destruct (topicPublish _ _ _ _) as [[m|e] q'']; cbn; by rewrite <- ?app_assoc.
Qed.

Lemma countCalls_app p (l1 l2 : list Call) :
  countCalls p (l1 ++ l2) = (countCalls p l1 + countCalls p l2)%nat.
Proof. unfold countCalls. by rewrite filter_app, length_app. Qed.

(** A request that completes leaves a client set, and has published
    through it and answered. *)
Lemma controller_completed req rt v :
  (controller env req rt).1 = Fulfilled v →
  ∃ client,
    pubsub (controller env req rt).2 = Some client
    ∧ callsOf (controller env req) rt
      = match pubsub rt with Some _ => [] | None => [NewPubSub] end
          ++ [ Publish client (EXT_INSTANCE_ID env) (Buffer_from "{}");
               Respond 200 "Ok" ].
Proof.
  pose proof (controller_cases req rt) as Hc. cbv zeta in Hc.
  unfold callsOf. rewrite !Hc. clear Hc.
  destruct (pubsub rt) as [c|].
  - destruct (topicPublish _ _ _ _) as [[m|e] q']; [|done].
    intros _. exists c. by read_calls.
  - destruct (newPubSub _) as [[c|e] q]; [|done].
    destruct (topicPublish _ _ _ _) as [[m|e] q']; [|done].
    intros _. exists c. by read_calls.
Qed.

(** C4. The HTTPS function [controller] does no aggregation and leaves the
    counter alone: it makes no call on a controller or a worker and the
    counter's documents are as before.  Besides creating its messaging
    client when it has none, all it does is publish one message to the
    topic and answer 200. *)
Theorem controller_only_enqueues_a_tick req rt :
  db (controller env req rt).2 = db rt
  ∧ countCalls touchesCounter (callsOf (controller env req) rt) = 0%nat
  ∧ (countCalls isPublish (callsOf (controller env req) rt) ≤ 1)%nat
  ∧ (∀ v, (controller env req rt).1 = Fulfilled v →
       ∃ client,
         pubsub (controller env req rt).2 = Some client
         ∧ callsOf (controller env req) rt
           = match pubsub rt with Some _ => [] | None => [NewPubSub] end
               ++ [ Publish client (EXT_INSTANCE_ID env) (Buffer_from "{}");
                    Respond 200 "Ok" ]).
Proof.
  split; [|split; [|split]]; [| | |apply controller_completed].
  all: pose proof (controller_cases req rt) as Hc; cbv zeta in Hc.
  all: unfold callsOf; rewrite !Hc; clear Hc.
  all: destruct (pubsub rt) as [c|].
  all: try (destruct (newPubSub _) as [[c|e] q]).
  all: try (destruct (topicPublish _ _ _ _) as [[m|e] q']).
  all: read_calls; try done; vm_compute; lia.
Qed.

(** One request never replaces a client that is set, and only adds to the
    log. *)
Lemma controller_keeps_client req rt c :
  pubsub rt = Some c →
  pubsub (controller env req rt).2 = Some c
  ∧ ∃ made, log (controller env req rt).2 = log rt ++ made
            ∧ countCalls isNewPubSub made = 0%nat.
Proof.
  intros Hset. pose proof (controller_cases req rt) as Hc. cbv zeta in Hc.
  rewrite !Hc, Hset. clear Hc.
  destruct (topicPublish _ _ _ _) as [[m|e] q']; cbn [fst snd pubsub log app];
    (split; [done|]); eexists; (split; [done|]); by vm_compute.
Qed.




Lemma exported_onWrite :
  exported env "onWrite"
  = Some (FirestoreDocumentOnWrite "/{collection}/{**}/_counter_shards_/{shardId}"
            (onWrite env)).
Proof.
  unfold exported, exports. cbn [list_to_map foldr fst snd].
  rewrite !lookup_insert_ne by done. by rewrite lookup_insert_eq.
Qed.

(** C8. [onWrite] does not look at its event: for any two changes and
    contexts (creation, update or deletion of any shard document) it does
    the same thing from the same state.  Once [firestore.doc] has returned
    the reference of the [INTERNAL_STATE_PATH] document, that is: construct
    a controller on it, call [aggregateContinuously] over
    [{ start: "", end: "" }] with limit 200 and a budget of 60000, and
    settle as that call does, on the state it left.  The deletion of a
    watched shard document, such as those the aggregation itself performs,
    is delivered to the exported [onWrite] like any other write and runs
    this same path. *)
Theorem onWrite_ignores_its_event change1 context1 change2 context2 rt :
  onWrite env change1 context1 rt = onWrite env change2 context2 rt
  ∧ (∀ r, firestoreDoc (INTERNAL_STATE_PATH env) = Fulfilled r →
     onWrite env change1 context1 rt
     = (match (continuousPass r rt).1 with
        | Fulfilled _ => Fulfilled Undefined
        | Rejected e => Rejected e
        end,
        {| db := (continuousPass r rt).2; mq := mq rt; pubsub := pubsub rt;
           log := log rt ++ [ NewController r SHARDS_COLLECTION_ID;
                              AggregateContinuously (theController r)
                                {| start := ""; end_ := "" |} 200 60000 ] |}))
  ∧ (∀ watches f,
       exported env "onWrite" = Some f →
       changeKind change1 = Deleted →
       watches "/{collection}/{**}/_counter_shards_/{shardId}"
               (path (ref (after change1))) = true →
       deliverWrite watches f change1 context1 rt
       = (match (onWrite env change1 context1 rt).1 with
          | Fulfilled v => Fulfilled (Some v)
          | Rejected e => Rejected e
          end,
          (onWrite env change1 context1 rt).2)).
Proof.
  split; [reflexivity|]. split.
  - intros r Hdoc. by rewrite onWrite_cases, Hdoc.
  - intros watches f Hf Hdel Hwatch. rewrite exported_onWrite in Hf.
    injection Hf as <-. unfold deliverWrite. rewrite Hwatch, Hdel.
    cbn [notified andb]. unfold bind at 1, ret.
    by destruct (onWrite env change1 context1 rt) as [[v|e] rt'].
Qed.

Lemma workerTick_not_exported : "workerTick" ∉ exportNames env.
Proof.
  unfold exportNames, exports. cbn. intros Hin.
  repeat (apply elem_of_cons in Hin as [Hin|Hin]; [discriminate Hin|]).
  by apply elem_of_nil in Hin.
Qed.

(** C5, as the code has it.  The module exports exactly four functions:
    [controllerCore], triggered by a message on the topic (the periodic
    tick); [controller], an HTTPS function (the manual trigger); [worker],
    triggered by a write to a document of the workers collection; and
    [onWrite], triggered by a write to a shard document.  No export is
    called [workerTick]. *)
Theorem exports_four_entry_points :
  exportNames env = ["controllerCore"; "controller"; "worker"; "onWrite"]
  ∧ triggerKind <$> (exports env).*2
    = [PubsubTopic; Https; FirestoreWrite; FirestoreWrite]
  ∧ watchedDocument <$> (exports env).*2
    = [ None; None;
        Some (INTERNAL_STATE_PATH env +:+ "_counter_workers_" +:+ "/{workerId}");
        Some "/{collection}/{**}/_counter_shards_/{shardId}" ]
  ∧ "workerTick" ∉ exportNames env.
Proof.
  split; [reflexivity|]. split; [reflexivity|]. split; [reflexivity|].
  apply workerTick_not_exported.
Qed.

End Facts.

(** ** Runs on the scripted collaborator *)

Import Fake Samples.

Lemma controllerCore_reschedules_witness :
  callsOf (controllerCore env0) (boot [TOO_MANY_SHARDS])
  = [ NewController {| path := "counters/state" |} "_counter_shards_";
      AggregateOnce (theController {| path := "counters/state" |}) fullSlice 200;
      RescheduleWorkers (theController {| path := "counters/state" |}) ]
  ∧ db (controllerCore env0 (boot [TOO_MANY_SHARDS])).2
    = {| script := []; reschedules := 1; runs := 0 |}.
Proof.
  assert (Hdoc : firestoreDoc (INTERNAL_STATE_PATH env0)
                 = Fulfilled {| path := "counters/state" |}) by reflexivity.
  assert (Hst : (firstPass {| path := "counters/state" |} (boot [TOO_MANY_SHARDS])).1
                = Fulfilled TOO_MANY_SHARDS) by reflexivity.
  assert (Hsig : signalled TOO_MANY_SHARDS) by (right; left; reflexivity).
  destruct (proj1 (controllerCore_reschedules_when_signalled env0
                     (boot [TOO_MANY_SHARDS]) {| path := "counters/state" |} Hdoc)
              TOO_MANY_SHARDS Hst Hsig)
    as (Hcalls & _ & Hdb & _).
  split; [exact Hcalls | exact Hdb].
Defined.

Lemma controllerCore_one_pass_witness :
  controllerCore envCollection (boot [OK])
  = (Rejected "documentPath must point to a document", boot [OK])
  ∧ (controllerCore env0 (boot [FAILURE])).1 = Fulfilled Null.
Proof.
  split.
  - refine (proj1 (controllerCore_one_pass_null_or_rejection envCollection (boot [OK]))
              "documentPath must point to a document" _).
    reflexivity.
  - assert (Hdoc : firestoreDoc (INTERNAL_STATE_PATH env0)
                   = Fulfilled {| path := "counters/state" |}) by reflexivity.
    destruct (proj1 (proj2 (controllerCore_one_pass_null_or_rejection env0
                                (boot [FAILURE])))
                {| path := "counters/state" |} Hdoc)
      as (_ & _ & _ & _ & Hres).
    refine (Hres FAILURE _). reflexivity.
Defined.

(** C9, as stated, fails twice over.  On a state path that names no
    document an invocation calls [aggregateOnce] not once but never; and
    when [aggregateOnce] returns [FAILURE] and the reschedule it triggers
    rejects, the function does not resolve to [null], it rejects. *)
Lemma controllerCore_not_always_one_pass_and_null :
  ¬ (∀ (env : Env) (rt : Runtime Fake.DB Fake.MQ),
       countCalls isAggregateOnce (callsOf (controllerCore env) rt) = 1%nat)
  ∧ ¬ (∀ (env : Env) (rt : Runtime unit unit) r st,
         @firestoreDoc _ _ Flaky.flaky (INTERNAL_STATE_PATH env) = Fulfilled r →
         (@firstPass _ _ Flaky.flaky r rt).1 = Fulfilled st →
         (@controllerCore _ _ Flaky.flaky env rt).1 = Fulfilled Null).
Proof.
  split.
  - intros Hclaim. specialize (Hclaim envCollection (boot [OK])).
    vm_compute in Hclaim. discriminate Hclaim.
  - intros Hclaim.
    assert (Hnull : (@controllerCore _ _ Flaky.flaky env0 Flaky.start).1
                    = Fulfilled Null).
    { apply (Hclaim env0 Flaky.start {| path := "counters/state" |} FAILURE);
        reflexivity. }
    vm_compute in Hnull. discriminate Hnull.
Qed.

Lemma onWrite_deletion_witness :
  deliverWrite watchesShards
    (FirestoreDocumentOnWrite "/{collection}/{**}/_counter_shards_/{shardId}"
       (onWrite env0))
    deletedShard context0 (boot [])
  = (match (onWrite env0 deletedShard context0 (boot [])).1 with
     | Fulfilled v => Fulfilled (Some v)
     | Rejected e => Rejected e
     end,
     (onWrite env0 deletedShard context0 (boot [])).2).
Proof.
  refine (proj2 (proj2 (onWrite_ignores_its_event env0
                          deletedShard context0 deletedShard context0 (boot [])))
            watchesShards _ _ _ _).
  - apply exported_onWrite.
  - reflexivity.
  - reflexivity.
Defined.

Lemma worker_runs_iff_descriptor_exists_witness :
  worker deletedDescriptor context0 (boot []) = (Fulfilled Undefined, boot [])
  ∧ countCalls isWorkerRun (callsOf (worker stoppedDescriptor context0) (boot [])) = 1%nat.
Proof.
  split.
  - refine (proj1 (proj1 (worker_runs_iff_descriptor_exists
                            deletedDescriptor context0 (boot [])) _)).
    reflexivity.
  - refine (proj2 (proj2 (worker_runs_iff_descriptor_exists
                            stoppedDescriptor context0 (boot []))) "stop" _ _).
    + reflexivity.
    + reflexivity.
Defined.

(** C3, as stated, fails: a descriptor that still exists and carries a stop
    flag does not make [worker] exit without action; a worker is
    constructed and its run is started. *)
Lemma worker_starts_run_on_stop_flag :
  ¬ (∀ (change : Change) (context : EventContext) (rt : Runtime DB MQ),
       snapExists (after change) = false ∨ carriesStopFlag "stop" (after change) →
       callsOf (worker change context) rt = []).
Proof.
  intros Hclaim.
  specialize (Hclaim stoppedDescriptor context0 (boot [])).
  assert (Hflag : carriesStopFlag "stop" (after stoppedDescriptor)) by reflexivity.
  specialize (Hclaim (or_intror Hflag)). vm_compute in Hclaim. discriminate Hclaim.
Qed.

Lemma controller_completed_witness :
  ∃ client,
    pubsub (controller env0 get (boot [])).2 = Some client
    ∧ callsOf (controller env0 get) (boot [])
      = [ NewPubSub;
          Publish client "firestore-counter" (Buffer_from "{}");
          Respond 200 "Ok" ].
Proof.
  refine (proj2 (proj2 (proj2 (controller_only_enqueues_a_tick env0 get (boot []))))
            Undefined _).
  reflexivity.
Defined.


(** C5, as stated, fails: the exported names are not [controllerCore],
    [onWrite], [workerTick] and one more. *)
Lemma no_export_named_workerTick :
  ¬ ∃ manual : string,
      exportNames (DB := DB) (MQ := MQ) env0
      ≡ₚ ["controllerCore"; "onWrite"; "workerTick"; manual].
Proof.
  intros [manual Hperm].
  assert (Hin : "workerTick" ∈ exportNames (DB := DB) (MQ := MQ) env0).
  { rewrite Hperm. do 2 right. left. }
  by apply workerTick_not_exported in Hin.
Qed.

End IndexTheorems.

(* ===================================================================== *)
(** * Further facts about index.ts *)
(* ===================================================================== *)

Module IndexExtras.
Import Index IndexMore IndexTheorems.

Lemma append_cons x (a b : string) : String x a +:+ b = String x (a +:+ b).
Proof. reflexivity. Qed.

Lemma append_assoc (a b c : string) : (a +:+ b) +:+ c = a +:+ (b +:+ c).
Proof. induction a as [|x a IH]; [done | by rewrite !append_cons, IH]. Qed.

Lemma segments_nonempty s : segments s ≠ [].
Proof.
  induction s as [|c s IH]; cbn; [done|].
  destruct (Ascii.eqb c slash); [done|]. by destruct (segments s).
Qed.

(** Cutting a concatenation: the last segment of the first part and the
    first segment of the second part become one segment. *)
Lemma segments_app (a b : string) :
  segments (a +:+ b)
  = removelast (segments a)
      ++ match segments b with
         | h :: t => (default EmptyString (last (segments a)) +:+ h) :: t
         | [] => []
         end.
Proof.
  induction a as [|c a IH].
  - change (EmptyString +:+ b) with b. cbn [segments removelast last default app].
    by destruct (segments b).
  - rewrite append_cons. cbn [segments].
    pose proof (segments_nonempty a) as Ha. pose proof (segments_nonempty b) as Hb.
    destruct (segments b) as [|hb tb]; [done|].
    destruct (Ascii.eqb c slash).
    + rewrite IH. destruct (segments a) as [|ha ta]; [done|].
      cbn [removelast]. by destruct ta.
    + rewrite IH. destruct (segments a) as [|ha ta]; [done|].
      destruct ta as [|ha' ta]; [done|].
      cbn [removelast app]. by destruct ta.
Qed.

Section ExtraFacts.
Context {DB MQ : Type} `{!Collaborators DB MQ} (env : Env).
Implicit Types rt : Runtime DB MQ.

(** X12. The document pattern of [worker] appends the workers collection
    id to the last segment of [INTERNAL_STATE_PATH]: no slash is put
    between them.  The pattern therefore has exactly one segment more than
    the state path, and it is the pattern registered in the exports. *)
Theorem workerDocument_segments :
  segments (workerDocument env)
  = removelast (segments (INTERNAL_STATE_PATH env))
      ++ [ default EmptyString (last (segments (INTERNAL_STATE_PATH env)))
             +:+ "_counter_workers_";
           "{workerId}" ]
  ∧ length (segments (workerDocument env))
    = S (length (segments (INTERNAL_STATE_PATH env)))
  ∧ watchedDocument <$> (exports env).*2 !! 2%nat = Some (Some (workerDocument env)).
Proof.
  assert (Hseg : segments (workerDocument env)
    = removelast (segments (INTERNAL_STATE_PATH env))
      ++ [ default EmptyString (last (segments (INTERNAL_STATE_PATH env)))
             +:+ "_counter_workers_";
           "{workerId}" ]).
  { unfold workerDocument. rewrite append_assoc, segments_app. reflexivity. }
  split; [exact Hseg|]. split.
  - rewrite Hseg, length_app. cbn [length].
    pose proof (segments_nonempty (INTERNAL_STATE_PATH env)) as Hne.
    destruct (segments (INTERNAL_STATE_PATH env)) as [|h t] using rev_ind; [done|].
    rewrite removelast_last, length_app. cbn. lia.
  - unfold workerDocument. rewrite append_assoc. reflexivity.
Qed.

(** X1. [controllerCore] rejects exactly when [firestore.doc] throws or
    one of the two promises it awaits rejects, and with that error:
    [aggregateOnce], or [rescheduleWorkers] when the status called for it.
    When [firestore.doc] throws no call is made and nothing changes; when
    [aggregateOnce] rejects, [rescheduleWorkers] is never called and the
    counter is left as [aggregateOnce] left it. *)
Theorem controllerCore_rejects_iff rt e :
  ((controllerCore env rt).1 = Rejected e ↔
     firestoreDoc (INTERNAL_STATE_PATH env) = Rejected e
     ∨ ∃ r, firestoreDoc (INTERNAL_STATE_PATH env) = Fulfilled r
            ∧ ((firstPass r rt).1 = Rejected e
               ∨ ∃ st, (firstPass r rt).1 = Fulfilled st ∧ signalled st
                       ∧ (rescheduleWorkers (theController r) (firstPass r rt).2).1
                         = Rejected e))
  ∧ (firestoreDoc (INTERNAL_STATE_PATH env) = Rejected e →
     controllerCore env rt = (Rejected e, rt))
  ∧ (∀ r, firestoreDoc (INTERNAL_STATE_PATH env) = Fulfilled r →
     (firstPass r rt).1 = Rejected e →
     countCalls isRescheduleWorkers (callsOf (controllerCore env) rt) = 0%nat
     ∧ db (controllerCore env rt).2 = (firstPass r rt).2).
Proof.
  pose proof (controllerCore_cases env rt) as Hc. split; [|split].
  - rewrite Hc. clear Hc. destruct (firestoreDoc _) as [r|e0].
    + destruct (firstPass r rt) as [[st|e1] d] eqn:Hfp; cbn [fst snd].
      * destruct (needsReschedule st) eqn:Hn; cbn [fst].
        -- split.
           ++ intros Hrej. right. exists r. split; [done|]. right. exists st.
              rewrite Hfp. cbn [fst snd]. split; [done|].
              split; [by apply needsReschedule_signalled|].
              destruct (rescheduleWorkers _ _) as [[u|e2] d']; cbn [fst] in *; congruence.
           ++ intros [[=]|(r' & [= <-] & [Hrej|(st' & Hst & _ & Hrej)])];
                rewrite Hfp in *; cbn [fst snd] in *; [done|].
              destruct (rescheduleWorkers _ _) as [[u|e2] d']; cbn [fst] in *; congruence.
        -- split; [done|].
           intros [[=]|(r' & [= <-] & [Hrej|(st' & Hst & Hs & _)])];
             rewrite Hfp in *; cbn [fst snd] in *; [done|].
           injection Hst as <-. apply needsReschedule_signalled in Hs. congruence.
      * split.
        -- intros [= <-]. right. exists r. split; [done|]. left. by rewrite Hfp.
        -- intros [[=]|(r' & [= <-] & [Hrej|(st' & Hst & _)])];
             rewrite Hfp in *; cbn [fst snd] in *; congruence.
    + cbn [fst]. split.
      * intros [= <-]. by left.
      * by intros [[= <-]|(r' & [=] & _)].
  - intros Hdoc. by rewrite Hc, Hdoc.
  - intros r Hdoc Hrej. unfold callsOf. rewrite !Hc, Hdoc. clear Hc.
    destruct (firstPass r rt) as [[st|e1] d]; [done|]. read_calls.
    split; [by vm_compute | done].
Qed.

(** X2. The reschedule acts on what the aggregation left: when
    [firestore.doc] has returned the state document and the status calls
    for a reschedule, the counter after [controllerCore] is the one
    [rescheduleWorkers] produced from the state [aggregateOnce] returned,
    whether or not the reschedule then rejects. *)
Theorem controllerCore_reschedules_after_aggregating rt r st :
  firestoreDoc (INTERNAL_STATE_PATH env) = Fulfilled r →
  (firstPass r rt).1 = Fulfilled st →
  signalled st →
  db (controllerCore env rt).2
  = (rescheduleWorkers (theController r) (firstPass r rt).2).2.
Proof.
  intros Hdoc Hst Hs. rewrite (controllerCore_cases env rt), Hdoc.
  destruct (firstPass r rt) as [[st0|e0] d]; cbn [fst snd] in *; [|done].
  injection Hst as ->. apply needsReschedule_signalled in Hs. by rewrite Hs.
Qed.

(** X3. The three functions triggered by the platform ([controllerCore],
    [worker], [onWrite]) never touch messaging: they make no call on the
    messaging client or on an HTTP response, and leave the messaging
    service and the module-level [pubsub] variable as they were. *)
Theorem triggered_functions_leave_messaging_alone rt change context :
  (countCalls isMessaging (callsOf (controllerCore env) rt) = 0%nat
   ∧ mq (controllerCore env rt).2 = mq rt
   ∧ pubsub (controllerCore env rt).2 = pubsub rt)
  ∧ (countCalls isMessaging (callsOf (worker change context) rt) = 0%nat
     ∧ mq (worker change context rt).2 = mq rt
     ∧ pubsub (worker change context rt).2 = pubsub rt)
  ∧ (countCalls isMessaging (callsOf (onWrite env change context) rt) = 0%nat
     ∧ mq (onWrite env change context rt).2 = mq rt
     ∧ pubsub (onWrite env change context rt).2 = pubsub rt).
Proof.
  split; [|split].
  - pose proof (controllerCore_cases env rt) as Hc. unfold callsOf.
    rewrite !Hc. clear Hc.
    destruct (firestoreDoc _) as [r|e0];
      [|cbn [snd]; rewrite drop_all; repeat split; by vm_compute].
    destruct (firstPass r rt) as [[st|e0] d]; [destruct (needsReschedule st)|];
      read_calls; repeat split; by vm_compute.
  - unfold callsOf. unfold_handler.
    destruct (snapExists (after change)); cbn [negb];
      [destruct (workerRun _ _) as [[u|e] d]|];
      read_calls; repeat split; by vm_compute.
  - unfold callsOf. rewrite !onWrite_cases.
    destruct (firestoreDoc _) as [r|e0];
      [|cbn [snd]; rewrite drop_all; repeat split; by vm_compute].
    read_calls; repeat split; by vm_compute.
Qed.

(** X4. [onWrite] settles as its one [aggregateContinuously] call does:
    once [firestore.doc] has returned the state document, it resolves (to
    undefined) exactly when that call fulfils, rejects with the same reason
    when it rejects, and either way leaves the counter as that call left
    it.  If [firestore.doc] throws instead, [onWrite] rejects with that
    error, makes no call and changes nothing. *)
Theorem onWrite_settles_as_aggregateContinuously change context rt :
  (∀ r, firestoreDoc (INTERNAL_STATE_PATH env) = Fulfilled r →
     (onWrite env change context rt).1
     = match (continuousPass r rt).1 with
       | Fulfilled _ => Fulfilled Undefined
       | Rejected e => Rejected e
       end
     ∧ db (onWrite env change context rt).2 = (continuousPass r rt).2)
  ∧ (∀ e, firestoreDoc (INTERNAL_STATE_PATH env) = Rejected e →
     onWrite env change context rt = (Rejected e, rt)
     ∧ callsOf (onWrite env change context) rt = []).
Proof.
  split.
  - intros r Hdoc. by rewrite onWrite_cases, Hdoc.
  - intros e Hdoc. unfold callsOf. rewrite onWrite_cases, Hdoc.
    split; [done|]. cbn [snd]. apply drop_all.
Qed.

(** X5. On a descriptor that exists after the write, [worker] settles as
    the run of the worker it constructs: undefined when the run fulfils,
    the run's reason when it rejects, and the counter is left as the run
    left it. *)
Theorem worker_settles_as_run change context rt :
  snapExists (after change) = true →
  (worker change context rt).1
  = match (workerPass change rt).1 with
    | Fulfilled _ => Fulfilled Undefined
    | Rejected e => Rejected e
    end
  ∧ db (worker change context rt).2 = (workerPass change rt).2.
Proof.
  intros Hex. unfold workerPass. unfold_handler. rewrite Hex. cbn [negb].
  by destruct (workerRun _ _) as [[u|e] d].
Qed.

(** X6. [worker] starts a run for a created and for an updated descriptor
    alike (an update is what a finished run writes back) and for no other
    change; and it reads nothing but [change.after]: two events with the
    same after-snapshot are handled identically. *)
Theorem worker_runs_on_create_and_update change context rt :
  countCalls isWorkerRun (callsOf (worker change context) rt)
  = match changeKind change with
    | Created | Updated => 1%nat
    | Deleted | Absent => 0%nat
    end
  ∧ ∀ change' context',
      after change' = after change →
      worker change' context' rt = worker change context rt.
Proof.
  split.
  - unfold changeKind, callsOf. unfold_handler.
    destruct (snapExists (before change)), (snapExists (after change)); cbn [negb];
      try (destruct (workerRun _ _) as [[u|e] d]); read_calls; by vm_compute.
  - intros change' context' Hafter. unfold worker. by rewrite Hafter.
Qed.

(** What one request adds to the log, counted. *)
Lemma controller_made req rt :
  ∃ made,
    log (controller env req rt).2 = log rt ++ made
    ∧ countCalls isRespond made
      = (if isFulfilled (controller env req rt).1 then 1 else 0)%nat
    ∧ (countCalls isRespond made ≤ countCalls isPublish made)%nat
    ∧ (countCalls isPublish made ≤ 1)%nat
    ∧ (countCalls isNewPubSub made ≤ 1)%nat
    ∧ (is_Some (pubsub rt) → countCalls isPublish made = 1%nat)
    ∧ (is_Some (pubsub (controller env req rt).2) →
       countCalls isPublish made = 1%nat).
Proof.
  pose proof (controller_cases env req rt) as Hc. cbv zeta in Hc.
  rewrite !Hc. clear Hc.
  destruct (pubsub rt) as [c|].
  - destruct (topicPublish _ _ _ _) as [[m|e] q']; cbn [fst snd log pubsub app];
      eexists; (split; [done|]); repeat split; try (vm_compute; lia); done.
  - destruct (newPubSub _) as [[c|e] q].
    + destruct (topicPublish _ _ _ _) as [[m|e] q']; cbn [fst snd log pubsub app];
        eexists; (split; [done|]); repeat split; try (vm_compute; lia);
        try done; by intros [? [=]].
    + cbn [fst snd log pubsub]. eexists; (split; [done|]);
        repeat split; try (vm_compute; lia); by intros [? [=]].
Qed.

(** X8. The HTTPS function answers exactly when it completes: the response
    200 Ok is among its calls if and only if its promise fulfils, it is
    then the last call made and the function resolves to undefined; and it
    never answers without having published. *)
Theorem controller_responds_iff_completes req rt :
  (Respond 200 "Ok" ∈ callsOf (controller env req) rt
   ↔ ∃ v, (controller env req rt).1 = Fulfilled v)
  ∧ (countCalls isRespond (callsOf (controller env req) rt)
     ≤ countCalls isPublish (callsOf (controller env req) rt))%nat
  ∧ (∀ v, (controller env req rt).1 = Fulfilled v →
       last (callsOf (controller env req) rt) = Some (Respond 200 "Ok")
       ∧ v = Undefined).
Proof.
  pose proof (controller_cases env req rt) as Hc. cbv zeta in Hc.
  unfold callsOf. rewrite !Hc. clear Hc.
  assert (Hno : ∀ (l : list Call), countCalls isRespond l = 0%nat →
                  Respond 200 "Ok" ∉ l).
  { intros l Hl Hin. unfold countCalls in Hl.
    assert (Hf : Respond 200 "Ok" ∈ filter (λ c, isRespond c = true) l)
      by (by apply list_elem_of_filter).
    destruct (filter _ l); [by apply elem_of_nil in Hf | done]. }
  destruct (pubsub rt) as [c|]; [|destruct (newPubSub _) as [[c|e0] q]].
  all: try destruct (topicPublish _ _ _ _) as [[m|e] q']; read_calls.
  all: split; [split|split]; try (vm_compute; lia).
  all: try (intros _; by eexists).
  all: try (intros _; do 3 (try (left; fail); right); left).
  all: try (intros Hin; exfalso; revert Hin; apply Hno; by vm_compute).
  all: try (intros [v [=]]).
  all: try (intros v [=]; done).
  all: intros v [= <-]; done.
Qed.

(** X9. A request that rejects sends no response, and what it leaves in
    the module-level variable depends on where it failed: if the client
    could not be constructed the variable stays unset, so the next request
    tries again; if the publish rejected, the client (fresh or old) stays
    in place and the publish was the last call made. *)
Theorem controller_rejected_request req rt e :
  (controller env req rt).1 = Rejected e →
  countCalls isRespond (callsOf (controller env req) rt) = 0%nat
  ∧ ((pubsub rt = None
      ∧ (newPubSub (mq rt)).1 = Rejected e
      ∧ pubsub (controller env req rt).2 = None
      ∧ callsOf (controller env req) rt = [NewPubSub])
     ∨ ∃ c, pubsub (controller env req rt).2 = Some c
            ∧ last (callsOf (controller env req) rt)
              = Some (Publish c (EXT_INSTANCE_ID env) (Buffer_from "{}"))).
Proof.
  pose proof (controller_cases env req rt) as Hc. cbv zeta in Hc.
  unfold callsOf. rewrite !Hc. clear Hc.
  destruct (pubsub rt) as [c|]; [|destruct (newPubSub _) as [[c|e0] q]].
  all: try destruct (topicPublish _ _ _ _) as [[m|e1] q']; cbn [fst snd pubsub];
    read_calls; intros [=]; subst.
  all: split; [by vm_compute|].
  all: try (right; by exists c).
  left. done.
Qed.

Lemma serve_log_extends reqs rt :
  ∃ more, log (serve env reqs rt) = log rt ++ more.
Proof.
  revert rt. induction reqs as [|req reqs IH]; intros rt; cbn [serve].
  - exists []. by rewrite app_nil_r.
  - destruct (controller_made req rt) as (made & Hlog & _).
    destruct (IH (controller env req rt).2) as (more & Hmore).
    exists (made ++ more). by rewrite Hmore, Hlog, app_assoc.
Qed.

Lemma servedCalls_cons req reqs rt :
  ∃ made,
    log (controller env req rt).2 = log rt ++ made
    ∧ servedCalls env (req :: reqs) rt
      = made ++ servedCalls env reqs (controller env req rt).2.
Proof.
  destruct (controller_made req rt) as (made & Hlog & _).
  destruct (serve_log_extends reqs (controller env req rt).2) as (more & Hmore).
  exists made. split; [done|]. unfold servedCalls. cbn [serve].
  rewrite Hmore, drop_app_length, Hlog, <- app_assoc, drop_app_length. done.
Qed.

(** X11. Along any sequence of requests served by one instance, the number
    of responses sent is the number of requests that completed; it never
    exceeds the number of publishes, which never exceeds the number of
    requests; and no more clients are constructed than requests served. *)
Theorem serve_counts reqs rt :
  countCalls isRespond (servedCalls env reqs rt)
  = length (filter (λ o, isFulfilled o = true) (outcomes env reqs rt))
  ∧ (countCalls isRespond (servedCalls env reqs rt)
     ≤ countCalls isPublish (servedCalls env reqs rt))%nat
  ∧ (countCalls isPublish (servedCalls env reqs rt) ≤ length reqs)%nat
  ∧ (countCalls isNewPubSub (servedCalls env reqs rt) ≤ length reqs)%nat.
Proof.
  revert rt. induction reqs as [|req reqs IH]; intros rt.
  - unfold servedCalls. cbn [serve outcomes]. rewrite drop_all.
    repeat split; by vm_compute.
  - destruct (servedCalls_cons req reqs rt) as (made & Hlog & ->).
    destruct (controller_made req rt) as (made' & Hlog' & Hr & Hrp & Hp & Hn & _).
    assert (made' = made) as -> by (rewrite Hlog in Hlog'; by apply app_inv_head in Hlog').
    destruct (IH (controller env req rt).2) as (IHr & IHrp & IHp & IHn).
    rewrite !countCalls_app. cbn [outcomes length].
    rewrite filter_cons.
    destruct (controller env req rt).1 as [v|e]; cbn [isFulfilled] in *.
    + rewrite decide_True by done. cbn [length]. lia.
    + rewrite decide_False by done. lia.
Qed.

(** What the requests hold is never read: two sequences of requests of the
    same length are served identically. *)
Lemma serve_same_length reqs1 reqs2 rt :
  length reqs1 = length reqs2 →
  serve env reqs1 rt = serve env reqs2 rt
  ∧ outcomes env reqs1 rt = outcomes env reqs2 rt.
Proof.
  revert reqs2 rt. induction reqs1 as [|r1 reqs1 IH]; intros [|r2 reqs2] rt Hlen;
    try done.
  cbn [serve outcomes]. injection Hlen as Hlen.
  change (controller env r1 rt) with (controller env r2 rt).
  destruct (IH reqs2 (controller env r2 rt).2 Hlen) as [-> ->]. done.
Qed.

(** X7. The HTTPS function never reads its request: method, URL and body
    make no difference, to one request or to a whole sequence.  Two
    sequences of requests of the same length leave the instance in the same
    state and settle the same way, one by one. *)
Theorem serve_ignores_requests reqs1 reqs2 rt :
  length reqs1 = length reqs2 →
  serve env reqs1 rt = serve env reqs2 rt
  ∧ outcomes env reqs1 rt = outcomes env reqs2 rt
  ∧ servedCalls env reqs1 rt = servedCalls env reqs2 rt.
Proof.
  intros Hlen. destruct (serve_same_length reqs1 reqs2 rt Hlen) as [Hs Ho].
  unfold servedCalls. by rewrite Hs, Ho.
Qed.

(** Once a client is set, every request publishes once and constructs
    nothing. *)
Lemma serve_with_client reqs rt c :
  pubsub rt = Some c →
  countCalls isNewPubSub (servedCalls env reqs rt) = 0%nat
  ∧ countCalls isPublish (servedCalls env reqs rt) = length reqs.
Proof.
  revert rt. induction reqs as [|req reqs IH]; intros rt Hset.
  - unfold servedCalls. cbn [serve]. rewrite drop_all. split; by vm_compute.
  - destruct (servedCalls_cons req reqs rt) as (made & Hlog & ->).
    destruct (controller_made req rt) as (made' & Hlog' & _ & _ & _ & _ & Hp & _).
    assert (made' = made) as -> by (rewrite Hlog in Hlog'; by apply app_inv_head in Hlog').
    destruct (controller_keeps_client env req rt c Hset) as (Hc & made'' & Hlog'' & Hn).
    assert (made'' = made) as -> by (rewrite Hlog in Hlog''; by apply app_inv_head in Hlog'').
    destruct (IH _ Hc) as [IHn IHp].
    rewrite !countCalls_app, Hn, IHn, IHp, Hp by (rewrite Hset; by eexists).
    cbn [length]. lia.
Qed.

(** X10. If constructing the messaging client never fails, an instance
    that starts from a freshly loaded module constructs exactly one client
    however many requests it serves (at least one), and publishes once per
    request, whether or not the publishes succeed. *)
Theorem serve_constructs_one_client reqs (d : DB) (q : MQ) :
  (∀ q', isFulfilled (newPubSub q').1 = true) →
  reqs ≠ [] →
  countCalls isNewPubSub (servedCalls env reqs (moduleLoaded d q)) = 1%nat
  ∧ countCalls isPublish (servedCalls env reqs (moduleLoaded d q)) = length reqs.
Proof.
  intros Hnew Hne. destruct reqs as [|req reqs]; [done|]. clear Hne.
  set (rt := moduleLoaded d q).
  destruct (servedCalls_cons req reqs rt) as (made & Hlog & ->).
  pose proof (controller_cases env req rt) as Hc. cbv zeta in Hc.
  change (pubsub rt) with (@None PubSub) in Hc. change (mq rt) with q in Hc.
  specialize (Hnew q). destruct (newPubSub q) as [[c|e] q0]; [|done].
  assert (Hfirst : pubsub (controller env req rt).2 = Some c
                   ∧ countCalls isNewPubSub made = 1%nat
                   ∧ countCalls isPublish made = 1%nat).
  { rewrite Hc in Hlog |- *.
    destruct (topicPublish _ _ _ _) as [[m|e] q']; cbn [fst snd pubsub log] in *;
      apply app_inv_head in Hlog; subst made; repeat split; by vm_compute. }
  destruct Hfirst as (Hset & Hn & Hp).
  destruct (serve_with_client reqs _ c Hset) as [Hn' Hp'].
  rewrite !countCalls_app, Hn, Hp, Hn', Hp'. cbn [length]. lia.
Qed.

End ExtraFacts.

(** ** Runs on the scripted collaborator *)

Import Fake Samples.

Lemma controllerCore_reschedules_after_aggregating_witness :
  db (controllerCore env0 (boot [WORKERS_RUNNING; OK])).2
  = {| script := [OK]; reschedules := 1; runs := 0 |}.
Proof.
  refine (controllerCore_reschedules_after_aggregating env0
            (boot [WORKERS_RUNNING; OK]) {| path := "counters/state" |}
            WORKERS_RUNNING _ _ _).
  - reflexivity.
  - reflexivity.
  - left. reflexivity.
Defined.

Lemma onWrite_settles_witness :
  onWrite envCollection deletedShard context0 (boot [])
  = (Rejected "documentPath must point to a document", boot [])
  ∧ (onWrite env0 deletedShard context0 (boot [])).1 = Fulfilled Undefined.
Proof.
  split.
  - refine (proj1 (proj2 (onWrite_settles_as_aggregateContinuously envCollection
                            deletedShard context0 (boot []))
                     "documentPath must point to a document" _)).
    reflexivity.
  - refine (proj1 (proj1 (onWrite_settles_as_aggregateContinuously env0
                            deletedShard context0 (boot []))
                     {| path := "counters/state" |} _)).
    reflexivity.
Defined.

Lemma worker_settles_as_run_witness :
  (worker createdDescriptor context0 (boot [])).1 = Fulfilled Undefined
  ∧ db (worker createdDescriptor context0 (boot [])).2
    = {| script := []; reschedules := 0; runs := 1 |}.
Proof.
  refine (worker_settles_as_run createdDescriptor context0 (boot []) _).
  reflexivity.
Defined.

Lemma controller_rejected_request_witness :
  countCalls isRespond (callsOf (controller env0 get) outage) = 0%nat
  ∧ ((pubsub outage = None
      ∧ (newPubSub (mq outage)).1 = Rejected "unavailable"
      ∧ pubsub (controller env0 get outage).2 = None
      ∧ callsOf (controller env0 get) outage = [NewPubSub])
     ∨ ∃ c, pubsub (controller env0 get outage).2 = Some c
            ∧ last (callsOf (controller env0 get) outage)
              = Some (Publish c "firestore-counter" (Buffer_from "{}"))).
Proof.
  refine (controller_rejected_request env0 get outage "unavailable" _).
  reflexivity.
Defined.

Lemma serve_ignores_requests_witness :
  serve env0 [get; post] (boot []) = serve env0 [post; post] (boot [])
  ∧ outcomes env0 [get; post] (boot []) = outcomes env0 [post; post] (boot [])
  ∧ servedCalls env0 [get; post] (boot []) = servedCalls env0 [post; post] (boot []).
Proof.
  refine (serve_ignores_requests env0 [get; post] [post; post] (boot []) _).
  reflexivity.
Defined.

Lemma serve_constructs_one_client_witness :
  countCalls isNewPubSub (servedCalls env0 [get; post; get] outage) = 1%nat
  ∧ countCalls isPublish (servedCalls env0 [get; post; get] outage) = 3%nat.
Proof.
  refine (serve_constructs_one_client env0 [get; post; get] (db outage) (mq outage) _ _).
  - intros q'. reflexivity.
  - discriminate.
Defined.

End IndexExtras.
